(** * kubelogin: the exec-credential plugin ([pkg/token/execCredentialPlugin.go])

    A shallow embedding of [execCredentialPlugin.Do], the function that
    decides between the cached token, a refresh and a full login, and of
    [New], which decides whether the token cache is used at all.

    The collaborators of [Do] are Go interfaces ([TokenCache],
    [ExecCredentialWriter], [TokenProvider]) and a constructor of
    refreshers.  Each call of one of them is recorded as an [Event], so
    that statements such as "the provider is not invoked" or "nothing is
    written to the cache" are statements about the list of events of a
    run. *)

From Stdlib Require Import ZArith Ascii String List Bool Lia.
From stdpp Require Import base strings list gmap.

Local Open Scope string_scope.

(** A non-nil Go [error], represented by its message ([Error()]);
    [nil] is [None] in an [option error]. *)
Definition error : Type := string.

(** The usual Go pair [(value, err)]: the value is looked at only when
    [err == nil]. *)
Inductive result (A : Type) : Type :=
| Ok (a : A)
| Err (err : error).
Arguments Ok {A} a.
Arguments Err {A} err.

(** ** The types of [github.com/Azure/go-autorest/autorest/adal] used by
    the plugin *)
Module adal.

(** [json.Number] is a string type; its zero value is the empty string. *)
Definition Number : Type := string.

(** [adal.Token]: every field is a string or a [json.Number]. *)
Record Token : Type := mkToken {
  AccessToken : string;
  RefreshToken : string;
  ExpiresIn : Number;
  ExpiresOn : Number;
  NotBefore : Number;
  Resource : string;
  Type_ : string
}.

(** [Token{}], the zero value; it is what [var token adal.Token]
    declares in [Do]. *)
Definition zero : Token := mkToken "" "" "" "" "" "" "".

(** Go's [==] on the struct: field by field. *)
Definition eqb (a b : Token) : bool :=
  String.eqb (AccessToken a) (AccessToken b)
  && String.eqb (RefreshToken a) (RefreshToken b)
  && String.eqb (ExpiresIn a) (ExpiresIn b)
  && String.eqb (ExpiresOn a) (ExpiresOn b)
  && String.eqb (NotBefore a) (NotBefore b)
  && String.eqb (Resource a) (Resource b)
  && String.eqb (Type_ a) (Type_ b).

(** [func (t Token) IsZero() bool { return t == Token{} }] *)
Definition IsZero (t : Token) : bool := eqb t zero.

(** [adal.OAuthConfig]: four endpoints, kept as their URL strings. *)
Record OAuthConfig : Type := mkOAuthConfig {
  AuthorityEndpoint : string;
  AuthorizeEndpoint : string;
  TokenEndpoint : string;
  DeviceCodeEndpoint : string
}.

Section Expiry.

(** [json.Number.Float64] followed by the conversion of
    [date.NewUnixTimeFromSeconds] to nanoseconds since the Unix epoch;
    [None] when [Float64] returns an error.  Floating-point parsing is
    not modelled: the function is a parameter. *)
Variable unixNanos : Number -> option Z.

(** [Expires]: the expiration as nanoseconds since the epoch; an
    [ExpiresOn] that does not parse counts as 3600 seconds before the
    epoch ([s = -3600]). *)
Definition Expires (t : Token) : Z :=
  match unixNanos (ExpiresOn t) with
  | Some ns => ns
  | None => (-3600 * 1000000000)%Z
  end.

(** [WillExpireIn(d)] is [!t.Expires().After(time.Now().Add(d))];
    [now] is the value of [time.Now()], [d] a [time.Duration] in
    nanoseconds. *)
Definition WillExpireIn (now : Z) (t : Token) (d : Z) : bool :=
  negb (now + d <? Expires t)%Z.

End Expiry.

End adal.

(** [expirationDelta time.Duration = 60 * time.Second], in nanoseconds. *)
Definition Second : Z := 1000000000.
Definition expirationDelta : Z := 60 * Second.

(** ** Options

    The fields of [Options] that this file reads (the struct itself is
    declared in [options.go]). *)
Record Options : Type := mkOptions {
  LoginMethod : string;
  ClientID : string;
  ClientCert : string;
  Username : string;
  ServerID : string;
  TenantID : string;
  Environment : string;
  IsLegacy : bool;
  TokenCacheDir : string;
  tokenCacheFile : string;
  IdentityResourceID : string;
  FederatedTokenFile : string;
  AuthorityHost : string;
  UseAzureRMTerraformEnv : bool
}.

(** [KlogsLoggingPurposeOptions] has the same fields. *)
Record KlogsLoggingPurposeOptions : Type := mkLoggingOptions {
  log_LoginMethod : string;
  log_ClientID : string;
  log_ClientCert : string;
  log_Username : string;
  log_ServerID : string;
  log_TenantID : string;
  log_Environment : string;
  log_IsLegacy : bool;
  log_TokenCacheDir : string;
  log_tokenCacheFile : string;
  log_IdentityResourceID : string;
  log_FederatedTokenFile : string;
  log_AuthorityHost : string;
  log_UseAzureRMTerraformEnv : bool
}.

Definition marshalOptionsForLogging (o : Options) : KlogsLoggingPurposeOptions :=
  {| log_LoginMethod := LoginMethod o;
     log_ClientID := ClientID o;
     log_ClientCert := ClientCert o;
     log_Username := Username o;
     log_ServerID := ServerID o;
     log_TenantID := TenantID o;
     log_Environment := Environment o;
     log_IsLegacy := IsLegacy o;
     log_TokenCacheDir := TokenCacheDir o;
     log_tokenCacheFile := tokenCacheFile o;
     log_IdentityResourceID := IdentityResourceID o;
     log_FederatedTokenFile := FederatedTokenFile o;
     log_AuthorityHost := AuthorityHost o;
     log_UseAzureRMTerraformEnv := UseAzureRMTerraformEnv o |}.

(** ** The collaborators *)

(** Modelled from the spec: [TokenCache] (the interface and its
    [defaultTokenCache] live in [tokenCache.go], which is not among the
    sources).  [Read] returns the zero token when there is no file and an
    error only on an I/O or decoding failure; [Write] overwrites the
    previous entry.  The two fields say which calls fail. *)
Record TokenCache : Type := mkTokenCache {
  ReadFailure : string -> option error;
  WriteFailure : string -> adal.Token -> option error
}.

(** [ExecCredentialWriter.Write(token, os.Stdout)]: the error it returns. *)
Record ExecCredentialWriter : Type := mkWriter {
  WriteResult : adal.Token -> option error
}.

(** [TokenProvider]: one method, [Token() (adal.Token, error)]. *)
Record TokenProvider : Type := mkProvider {
  Token : result adal.Token
}.

Record execCredentialPlugin : Type := mkPlugin {
  o : Options;
  tokenCache : TokenCache;
  execCredentialWriter : ExecCredentialWriter;
  provider : TokenProvider;
  disableTokenCache : bool;
  refresher : adal.OAuthConfig -> string -> string -> string -> adal.Token ->
              result TokenProvider
}.

(** ** Runs: a state and a log of the calls made *)

(** What a run can observe and change: the clock read by [time.Now()]
    and the cache files, by path. *)
Record World : Type := mkWorld {
  clock : Z;
  files : gmap string adal.Token
}.

Inductive Event : Type :=
| CacheRead (file : string)
| GetOAuthConfig (environment tenantID : string) (isLegacy : bool)
| NewRefresher (cfg : adal.OAuthConfig) (clientID serverID tenantID : string)
               (token : adal.Token)
| RefresherToken
| ProviderToken
| CacheWrite (file : string) (token : adal.Token)
| CredentialWrite (token : adal.Token).

Record Outcome (A : Type) : Type := mkOutcome {
  value : A;
  world : World;
  events : list Event
}.
Arguments mkOutcome {A} value world events.
Arguments value {A} _.
Arguments world {A} _.
Arguments events {A} _.

Definition M (A : Type) : Type := World -> Outcome A.

Definition ret {A : Type} (a : A) : M A := fun w => mkOutcome a w [].

Definition bind {A B : Type} (m : M A) (k : A -> M B) : M B :=
  fun w =>
    let r := m w in
    let r' := k (value r) (world r) in
    mkOutcome (value r') (world r') (events r ++ events r').

(** [call e a]: a call of a collaborator that leaves the world alone. *)
Definition call {A : Type} (e : Event) (a : A) : M A :=
  fun w => mkOutcome a w [e].

#[global] Instance M_ret : MRet M := @ret.
#[global] Instance M_bind : MBind M := fun A B k m => bind m k.

(** [tell es m]: the run [m] after the events [es]. *)
Definition tell {A : Type} (es : list Event) (r : Outcome A) : Outcome A :=
  mkOutcome (value r) (world r) (es ++ events r).

(** [tokenCache.Read(file)] *)
Definition Read (c : TokenCache) (file : string) (w : World) : result adal.Token :=
  match ReadFailure c file with
  | Some err => Err err
  | None => Ok (default adal.zero (files w !! file))
  end.

Definition TokenCache_Read (c : TokenCache) (file : string) : M (result adal.Token) :=
  fun w => mkOutcome (Read c file w) w [CacheRead file].

(** [tokenCache.Write(file, token)] *)
Definition TokenCache_Write (c : TokenCache) (file : string) (token : adal.Token)
  : M (option error) :=
  fun w =>
    match WriteFailure c file token with
    | Some err => mkOutcome (Some err) w [CacheWrite file token]
    | None =>
        mkOutcome None (mkWorld (clock w) (<[file := token]> (files w)))
                  [CacheWrite file token]
    end.

(** [execCredentialWriter.Write(token, os.Stdout)] *)
Definition ExecCredentialWriter_Write (p : execCredentialPlugin) (token : adal.Token)
  : M (option error) :=
  call (CredentialWrite token) (WriteResult (execCredentialWriter p) token).

(** [time.Now()] *)
Definition Now : M Z := fun w => mkOutcome (clock w) w [].

(** ** The plugin *)

Section Plugin.

Variable unixNanos : adal.Number -> option Z.

(** [getOAuthConfig(envName, tenantID, isLegacy)], a function of the
    package declared outside this file. *)
Variable getOAuthConfig : string -> string -> bool -> result adal.OAuthConfig.

(** The local [targetAudience] of [Do]: [ServerID], or
    [fmt.Sprintf("spn:%s", ServerID)] in legacy mode. *)
Definition targetAudience (o : Options) : string :=
  if IsLegacy o then "spn:" +:+ ServerID o else ServerID o.

(** The end of [Do], from the log line "acquire new token" on: the three
    places that leave the [if] on the cached token without returning
    continue here. *)
Definition acquireNewToken (p : execCredentialPlugin) : M (option error) :=
  r ← call ProviderToken (Token (provider p));
  match r with
  | Err err => mret (Some ("failed to get token: " +:+ err))
  | Ok token =>
      werr ← (if negb (disableTokenCache p)
              then TokenCache_Write (tokenCache p) (tokenCacheFile (o p)) token
              else mret None);
      match werr with
      | Some err =>
          mret (Some ("unable to write to token cache: " +:+ tokenCacheFile (o p)
                      +:+ ", err: " +:+ err))
      | None => ExecCredentialWriter_Write p token
      end
  end.

(** The branch [if token.RefreshToken != ""] of [Do].  The inner
    [token, err := refresher.Token()] is [token'] here; [tokenRefreshed]
    is [true] exactly when [err == nil]. *)
Definition refreshToken (p : execCredentialPlugin) (token : adal.Token)
  : M (option error) :=
  c ← call (GetOAuthConfig (Environment (o p)) (TenantID (o p)) (IsLegacy (o p)))
           (getOAuthConfig (Environment (o p)) (TenantID (o p)) (IsLegacy (o p)));
  match c with
  | Err err => mret (Some ("unable to get oAuthConfig: " +:+ err))
  | Ok oAuthConfig =>
      r ← call (NewRefresher oAuthConfig (ClientID (o p)) (ServerID (o p))
                             (TenantID (o p)) token)
               (refresher p oAuthConfig (ClientID (o p)) (ServerID (o p))
                          (TenantID (o p)) token);
      match r with
      | Err err => mret (Some ("failed to get refresher: " +:+ err))
      | Ok refresher' =>
          t ← call RefresherToken (Token refresher');
          match t with
          | Err _ => acquireNewToken p
          | Ok token' =>
              werr ← TokenCache_Write (tokenCache p) (tokenCacheFile (o p)) token';
              match werr with
              | Some err => mret (Some ("failed to write to store: " +:+ err))
              | None => ExecCredentialWriter_Write p token'
              end
          end
      end
  end.

(** [func (p *execCredentialPlugin) Do() error] *)
Definition Do (p : execCredentialPlugin) : M (option error) :=
  r ← (if negb (disableTokenCache p)
       then TokenCache_Read (tokenCache p) (tokenCacheFile (o p))
       else mret (Ok adal.zero));
  match r with
  | Err err =>
      mret (Some ("unable to read from token cache: " +:+ tokenCacheFile (o p)
                  +:+ ", err: " +:+ err))
  | Ok token =>
      if String.eqb (adal.Resource token) (targetAudience (o p))
         && negb (adal.IsZero token)
      then
        now ← Now;
        if negb (adal.WillExpireIn unixNanos now token expirationDelta)
        then ExecCredentialWriter_Write p token
        else if negb (String.eqb (adal.RefreshToken token) "")
             then refreshToken p token
             else acquireNewToken p
      else acquireNewToken p
  end.

End Plugin.

(** [func New(o *Options) (ExecCredentialPlugin, error)]; the [klog] line
    that prints [marshalOptionsForLogging(o)] has no effect on the result. *)
Section New.

(** The login methods that switch the cache off; the constants are
    declared with [Options]. *)
Variables ServicePrincipalLogin MSILogin WorkloadIdentityLogin AzureCLILogin : string.

(** What [New] puts into the plugin, all declared elsewhere in the
    package: [newTokenProvider], [&defaultTokenCache{}],
    [&execCredentialWriter{}] and [newManualToken]. *)
Variable newTokenProvider : Options -> result TokenProvider.
Variable defaultTokenCache : TokenCache.
Variable defaultExecCredentialWriter : ExecCredentialWriter.
Variable newManualToken :
  adal.OAuthConfig -> string -> string -> string -> adal.Token -> result TokenProvider.

Definition New (o : Options) : result execCredentialPlugin :=
  match newTokenProvider o with
  | Err err => Err err
  | Ok provider =>
      let disableTokenCache :=
        if String.eqb (LoginMethod o) ServicePrincipalLogin
           || String.eqb (LoginMethod o) MSILogin
           || String.eqb (LoginMethod o) WorkloadIdentityLogin
           || String.eqb (LoginMethod o) AzureCLILogin
        then true else false in
      Ok {| o := o;
            tokenCache := defaultTokenCache;
            execCredentialWriter := defaultExecCredentialWriter;
            provider := provider;
            refresher := newManualToken;
            disableTokenCache := disableTokenCache |}
  end.

End New.

(** ** The situations the statements below speak of *)

Section Situations.

Variable unixNanos : adal.Number -> option Z.
Variable p : execCredentialPlugin.
Variable w : World.

(** The cache is in use and [tokenCache.Read] returned [token]. *)
Definition cachedToken (token : adal.Token) : Prop :=
  disableTokenCache p = false
  /\ Read (tokenCache p) (tokenCacheFile (o p)) w = Ok token.

(** The token was issued for the audience asked for and is not [Token{}]. *)
Definition matchesAudience (token : adal.Token) : Prop :=
  adal.Resource token = targetAudience (o p) /\ token <> adal.zero.

(** At most [expirationDelta] is left before the token expires. *)
Definition aboutToExpire (token : adal.Token) : Prop :=
  (adal.Expires unixNanos token - clock w <= expirationDelta)%Z.

(** [Do] reaches the branch [if token.RefreshToken != ""]. *)
Definition refreshEntered (token : adal.Token) : Prop :=
  cachedToken token /\ matchesAudience token /\ aboutToExpire token
  /\ adal.RefreshToken token <> "".

End Situations.

(** Kinds of calls, to count them in the events of a run. *)
Definition isProviderToken (e : Event) : bool :=
  match e with ProviderToken => true | _ => false end.

Definition isCacheAccess (e : Event) : bool :=
  match e with CacheRead _ | CacheWrite _ _ => true | _ => false end.

Definition isCredentialWrite (e : Event) : bool :=
  match e with CredentialWrite _ => true | _ => false end.

Definition calls (kind : Event -> bool) (es : list Event) : nat :=
  length (List.filter kind es).


Definition isCacheWrite (e : Event) : bool :=
  match e with CacheWrite _ _ => true | _ => false end.




(** ** Concrete data for the examples *)

(** An instance of [unixNanos]: [ExpiresOn] written as unsigned whole
    seconds in decimal, the form in which the tokens of the examples carry
    it.  Anything else, the empty string included, does not parse. *)
Definition digit (c : ascii) : option Z :=
  let n := nat_of_ascii c in
  if (48 <=? n)%nat && (n <=? 57)%nat then Some (Z.of_nat (n - 48)) else None.

Fixpoint digits (s : string) (acc : Z) : option Z :=
  match s with
  | EmptyString => Some acc
  | String c s' =>
      match digit c with
      | Some d => digits s' (10 * acc + d)%Z
      | None => None
      end
  end.

Definition wholeSeconds (s : adal.Number) : option Z :=
  match s with
  | EmptyString => None
  | _ => match digits s 0 with
         | Some n => Some (n * Second)%Z
         | None => None
         end
  end.

Module Sample.

Definition cacheFile : string := "/home/u/.kube/cache/kubelogin/azure.json".

Definition options (legacy : bool) (method : string) : Options :=
  {| LoginMethod := method;
     ClientID := "client";
     ClientCert := "";
     Username := "";
     ServerID := "R";
     TenantID := "tenant";
     Environment := "AzurePublicCloud";
     IsLegacy := legacy;
     TokenCacheDir := "/home/u/.kube/cache/kubelogin/";
     tokenCacheFile := cacheFile;
     IdentityResourceID := "";
     FederatedTokenFile := "";
     AuthorityHost := "";
     UseAzureRMTerraformEnv := false |}.

Definition oauth : adal.OAuthConfig :=
  adal.mkOAuthConfig "https://login.microsoftonline.com/tenant"
                     "https://login.microsoftonline.com/tenant/oauth2/authorize"
                     "https://login.microsoftonline.com/tenant/oauth2/token"
                     "https://login.microsoftonline.com/tenant/oauth2/devicecode".

(** Tokens: [cached exp rt] is a cached token for resource ["R"]. *)
Definition cached (resource : string) (exp : adal.Number) (rt : string) : adal.Token :=
  adal.mkToken "cached-access" rt "3600" exp "0" resource "Bearer".
Definition refreshed : adal.Token :=
  adal.mkToken "refreshed-access" "rt2" "3600" "9000" "0" "R" "Bearer".
Definition fresh : adal.Token :=
  adal.mkToken "fresh-access" "rt3" "3600" "9500" "0" "R" "Bearer".

(** Collaborators that never fail. *)
Definition cacheOk : TokenCache := mkTokenCache (fun _ => None) (fun _ _ => None).
Definition writerOk : ExecCredentialWriter := mkWriter (fun _ => None).
Definition getOAuthConfigOk (_ _ : string) (_ : bool) : result adal.OAuthConfig :=
  Ok oauth.

Definition plugin (o : Options) (c : TokenCache) (login : result adal.Token)
           (refresh : result TokenProvider) (disable : bool) : execCredentialPlugin :=
  {| o := o;
     tokenCache := c;
     execCredentialWriter := writerOk;
     provider := mkProvider login;
     disableTokenCache := disable;
     refresher := fun _ _ _ _ _ => refresh |}.

(** The clock stands at 1000 s; the cache file holds [t]. *)
Definition at1000 (t : adal.Token) : World :=
  mkWorld (1000 * Second) {[ cacheFile := t ]}.
Definition emptyAt1000 : World := mkWorld (1000 * Second) ∅.

(** Cached tokens: good for an hour, ten seconds from expiry, issued for
    another resource, and two tokens without an access token. *)
Definition valid : adal.Token := cached "R" "4600" "rt".
Definition expiring : adal.Token := cached "R" "1010" "rt".
Definition other : adal.Token := cached "Q" "4600" "rt".
Definition onlyRefresh : adal.Token := adal.mkToken "" "rt" "" "" "" "R" "".
Definition noAccess : adal.Token := adal.mkToken "" "" "" "4600" "" "R" "".

(** Collaborators that fail. *)
Definition cacheReadFails : TokenCache :=
  mkTokenCache (fun _ => Some "unexpected end of JSON input") (fun _ _ => None).
Definition cacheWriteFails : TokenCache :=
  mkTokenCache (fun _ => None) (fun _ _ => Some "no space left on device").

(** The device-code login with a working refresher. *)
Definition devicecode (c : TokenCache) (refresh : result TokenProvider)
  : execCredentialPlugin :=
  plugin (options false "devicecode") c (Ok fresh) refresh false.
Definition refreshOk : result TokenProvider := Ok (mkProvider (Ok refreshed)).
Definition refreshFails : result TokenProvider :=
  Ok (mkProvider (Err "invalid_grant")).
Definition noRefresher : result TokenProvider := Err "clientID cannot be empty".

(** [New] with the names of the login methods and collaborators that work. *)
Definition new (o : Options) : result execCredentialPlugin :=
  New "spn" "msi" "workloadidentity" "azurecli"
      (fun _ => Ok (mkProvider (Ok fresh))) cacheOk writerOk
      (fun _ _ _ _ _ => refreshOk) o.

End Sample.


(** ** Tactics *)

(** Unfold a run down to the results of the collaborators. *)
Ltac run :=
  unfold Do, refreshToken, acquireNewToken, ExecCredentialWriter_Write, tell,
    mbind, M_bind, bind, mret, M_ret, ret, call, TokenCache_Read, TokenCache_Write,
    Now;
  cbn [value world events negb app].

(** Case analysis on everything a run asks of its collaborators. *)
Ltac branch :=
  match goal with
  | |- context [match ?x with _ => _ end] =>
      lazymatch x with
      | context [match _ with _ => _ end] => fail
      | _ => destruct x eqn:?
      end
  | H : context [match ?x with _ => _ end] |- _ =>
      lazymatch x with
      | context [match _ with _ => _ end] => fail
      | _ => destruct x eqn:?
      end
  end; cbn [value world events negb app] in *.

(** ** The tests made by [Do] *)

Lemma IsZero_true (t : adal.Token) : adal.IsZero t = true <-> t = adal.zero.
Proof.
  unfold adal.IsZero, adal.eqb. rewrite !andb_true_iff, !String.eqb_eq.
  destruct t; cbn. split.
  - intros [[[[[[-> ->] ->] ->] ->] ->] ->]. reflexivity.
  - intros H. injection H as -> -> -> -> -> -> ->. tauto.
Qed.

Lemma IsZero_false (t : adal.Token) : adal.IsZero t = false <-> t <> adal.zero.
Proof.
  rewrite <- IsZero_true. destruct (adal.IsZero t); split; congruence.
Qed.

(** A token of a non-empty resource is not the zero token. *)
Lemma Resource_not_zero (t : adal.Token) : adal.Resource t <> "" -> t <> adal.zero.
Proof. intros H ->. apply H. reflexivity. Qed.

Lemma WillExpireIn_false unixNanos now t d :
  adal.WillExpireIn unixNanos now t d = false <-> (adal.Expires unixNanos t - now > d)%Z.
Proof.
  unfold adal.WillExpireIn. rewrite negb_false_iff, Z.ltb_lt. lia.
Qed.

Lemma WillExpireIn_true unixNanos now t d :
  adal.WillExpireIn unixNanos now t d = true <-> (adal.Expires unixNanos t - now <= d)%Z.
Proof.
  unfold adal.WillExpireIn. rewrite negb_true_iff, Z.ltb_ge. lia.
Qed.

(** The guard [token.Resource == targetAudience && !token.IsZero()]. *)
Lemma guard_true (p : execCredentialPlugin) (t : adal.Token) :
  String.eqb (adal.Resource t) (targetAudience (o p)) && negb (adal.IsZero t) = true
  <-> matchesAudience p t.
Proof.
  unfold matchesAudience.
  rewrite andb_true_iff, String.eqb_eq, negb_true_iff, IsZero_false. tauto.
Qed.

Lemma guard_false (p : execCredentialPlugin) (t : adal.Token) :
  String.eqb (adal.Resource t) (targetAudience (o p)) && negb (adal.IsZero t) = false
  <-> ~ matchesAudience p t.
Proof.
  rewrite <- guard_true. destruct (_ && _); split; congruence.
Qed.

Lemma RefreshToken_nonempty (t : adal.Token) :
  negb (String.eqb (adal.RefreshToken t) "") = true <-> adal.RefreshToken t <> "".
Proof. rewrite negb_true_iff. apply String.eqb_neq. Qed.

(** The audience in legacy mode carries the marker ["spn:"]. *)
Lemma targetAudience_legacy (o : Options) :
  IsLegacy o = true -> targetAudience o = "spn:" +:+ ServerID o.
Proof. unfold targetAudience. intros ->. reflexivity. Qed.

Lemma targetAudience_plain (o : Options) :
  IsLegacy o = false -> targetAudience o = ServerID o.
Proof. unfold targetAudience. intros ->. reflexivity. Qed.

(** ** Runs of [Do], path by path *)

Section Paths.

Variable unixNanos : adal.Number -> option Z.
Variable getOAuthConfig : string -> string -> bool -> result adal.OAuthConfig.
Variable p : execCredentialPlugin.
Variable w : World.

Abbreviation Do' := (Do unixNanos getOAuthConfig).
Abbreviation refresh' := (refreshToken getOAuthConfig).
Abbreviation file := (tokenCacheFile (o p)).

(** What the full login returns and which calls it makes does not depend
    on the world it starts from. *)
Lemma acquireNewToken_value_events (w0 : World) :
  value (acquireNewToken p w0) = value (acquireNewToken p w)
  /\ events (acquireNewToken p w0) = events (acquireNewToken p w).
Proof. run. repeat branch; split; reflexivity. Qed.

Lemma acquireNewToken_first_event :
  exists rest, events (acquireNewToken p w) = ProviderToken :: rest.
Proof. run. eexists. reflexivity. Qed.


(** The only credential the full login hands to the writer is the one the
    provider returned. *)
Lemma acquireNewToken_emits (t : adal.Token) :
  In (CredentialWrite t) (events (acquireNewToken p w)) -> Token (provider p) = Ok t.
Proof.
  run. repeat branch; cbn [In]; intros H;
    repeat (destruct H as [H|H]; try discriminate H); try contradiction;
    congruence.
Qed.

Lemma Do_read_error (err : error) :
  disableTokenCache p = false ->
  Read (tokenCache p) file w = Err err ->
  Do' p w = mkOutcome (Some ("unable to read from token cache: " +:+ file
                             +:+ ", err: " +:+ err))
                      w [CacheRead file].
Proof.
  intros Hd Hr. run. rewrite Hd. cbn [negb value world events]. rewrite Hr.
  reflexivity.
Qed.

Lemma Do_cached (token : adal.Token) :
  cachedToken p w token ->
  Do' p w =
  tell [CacheRead file]
    (if String.eqb (adal.Resource token) (targetAudience (o p))
        && negb (adal.IsZero token)
     then if negb (adal.WillExpireIn unixNanos (clock w) token expirationDelta)
          then mkOutcome (WriteResult (execCredentialWriter p) token) w
                         [CredentialWrite token]
          else if negb (String.eqb (adal.RefreshToken token) "")
               then refresh' p token w
               else acquireNewToken p w
     else acquireNewToken p w).
Proof.
  intros [Hd Hr]. unfold Do, tell, mbind, M_bind, bind, TokenCache_Read.
  rewrite Hd. cbn [negb value world events]. rewrite Hr.
  destruct (_ && _); [|reflexivity].
  unfold Now. cbn [value world events].
  destruct (negb (adal.WillExpireIn _ _ _ _)); [reflexivity|].
  destruct (negb _); reflexivity.
Qed.

(** Without the cache, [token] stays [Token{}] and [Do] is the full login. *)
Lemma Do_cache_disabled :
  disableTokenCache p = true -> Do' p w = acquireNewToken p w.
Proof.
  intros Hd. unfold Do, mbind, M_bind, bind, mret, M_ret, ret.
  rewrite Hd. cbn [negb value world events].
  replace (adal.IsZero adal.zero) with true by reflexivity.
  rewrite andb_false_r. cbn [app]. destruct (acquireNewToken p w); reflexivity.
Qed.

Lemma Do_hit (token : adal.Token) :
  cachedToken p w token ->
  matchesAudience p token ->
  ~ aboutToExpire unixNanos w token ->
  Do' p w = mkOutcome (WriteResult (execCredentialWriter p) token) w
                      [CacheRead file; CredentialWrite token].
Proof.
  intros Hc Hm He. rewrite (Do_cached token Hc).
  apply guard_true in Hm. rewrite Hm.
  assert (Hx : adal.WillExpireIn unixNanos (clock w) token expirationDelta = false).
  { apply WillExpireIn_false. unfold aboutToExpire in He. lia. }
  rewrite Hx. reflexivity.
Qed.

Lemma Do_miss (token : adal.Token) :
  cachedToken p w token ->
  ~ matchesAudience p token ->
  Do' p w = tell [CacheRead file] (acquireNewToken p w).
Proof.
  intros Hc Hm. rewrite (Do_cached token Hc).
  apply guard_false in Hm. rewrite Hm. reflexivity.
Qed.

Lemma Do_expiring (token : adal.Token) :
  cachedToken p w token ->
  matchesAudience p token ->
  aboutToExpire unixNanos w token ->
  Do' p w = tell [CacheRead file]
              (if negb (String.eqb (adal.RefreshToken token) "")
               then refresh' p token w
               else acquireNewToken p w).
Proof.
  intros Hc Hm He. rewrite (Do_cached token Hc).
  apply guard_true in Hm. rewrite Hm.
  apply WillExpireIn_true in He. rewrite He. reflexivity.
Qed.

Lemma Do_refresh (token : adal.Token) :
  refreshEntered unixNanos p w token ->
  Do' p w = tell [CacheRead file] (refresh' p token w).
Proof.
  intros (Hc & Hm & He & Hr). rewrite (Do_expiring token Hc Hm He).
  apply RefreshToken_nonempty in Hr. rewrite Hr. reflexivity.
Qed.

End Paths.

(** ** The properties of [Do] *)

(** C1. A cached token issued for the target audience, not the zero token
    and expiring more than 60 seconds after the current time, is handed
    unchanged to the credential writer, whose result [Do] returns: the run
    consists of the cache read and the credential write only, so neither
    the refresher nor the provider is invoked and the cache is not
    written. *)
Theorem Do_valid_cached_token
  (unixNanos : adal.Number -> option Z)
  (getOAuthConfig : string -> string -> bool -> result adal.OAuthConfig)
  (p : execCredentialPlugin) (w : World) (token : adal.Token) :
  cachedToken p w token ->
  adal.Resource token = targetAudience (o p) ->
  token <> adal.zero ->
  (adal.Expires unixNanos token - clock w > 60 * Second)%Z ->
  Do unixNanos getOAuthConfig p w
  = mkOutcome (WriteResult (execCredentialWriter p) token) w
              [CacheRead (tokenCacheFile (o p)); CredentialWrite token].
Proof.
  intros Hc Hr Hz He. apply Do_hit; [assumption | split; assumption |].
  unfold aboutToExpire, expirationDelta. lia.
Qed.

Lemma Do_valid_cached_token_witness :
  Do wholeSeconds Sample.getOAuthConfigOk
     (Sample.devicecode Sample.cacheOk Sample.refreshOk) (Sample.at1000 Sample.valid)
  = mkOutcome None (Sample.at1000 Sample.valid)
              [CacheRead Sample.cacheFile; CredentialWrite Sample.valid].
Proof.
  apply (Do_valid_cached_token wholeSeconds Sample.getOAuthConfigOk
           (Sample.devicecode Sample.cacheOk Sample.refreshOk)
           (Sample.at1000 Sample.valid) Sample.valid).
  - split; reflexivity.
  - reflexivity.
  - discriminate.
  - vm_compute. reflexivity.
Defined.

(** C6. With the cache in use, an error of [tokenCache.Read] ends [Do] at
    once with an error: the run consists of the cache read only, so there
    is no refresh, no login and no credential. *)
Theorem Do_cache_read_failure
  (unixNanos : adal.Number -> option Z)
  (getOAuthConfig : string -> string -> bool -> result adal.OAuthConfig)
  (p : execCredentialPlugin) (w : World) (err : error) :
  disableTokenCache p = false ->
  Read (tokenCache p) (tokenCacheFile (o p)) w = Err err ->
  Do unixNanos getOAuthConfig p w
  = mkOutcome (Some ("unable to read from token cache: " +:+ tokenCacheFile (o p)
                     +:+ ", err: " +:+ err))
              w [CacheRead (tokenCacheFile (o p))].
Proof. apply Do_read_error. Qed.

Lemma Do_cache_read_failure_witness :
  Do wholeSeconds Sample.getOAuthConfigOk
     (Sample.devicecode Sample.cacheReadFails Sample.refreshOk)
     (Sample.at1000 Sample.valid)
  = mkOutcome
      (Some "unable to read from token cache: /home/u/.kube/cache/kubelogin/azure.json, err: unexpected end of JSON input")
      (Sample.at1000 Sample.valid) [CacheRead Sample.cacheFile].
Proof.
  apply (Do_cache_read_failure wholeSeconds Sample.getOAuthConfigOk
           (Sample.devicecode Sample.cacheReadFails Sample.refreshOk)
           (Sample.at1000 Sample.valid) "unexpected end of JSON input");
    reflexivity.
Defined.

(** C3. A cached token whose resource differs from the target audience
    ([ServerID], with ["spn:"] in front in legacy mode) is never handed to
    the credential writer, however far away its expiration is: after the
    cache read [Do] runs the full login, it returns what a run on a cache
    miss returns and makes the same calls, and the only credential it can
    emit is the one the provider returned. *)
Theorem Do_audience_mismatch
  (unixNanos : adal.Number -> option Z)
  (getOAuthConfig : string -> string -> bool -> result adal.OAuthConfig)
  (p : execCredentialPlugin) (w : World) (token : adal.Token) :
  cachedToken p w token ->
  adal.Resource token
    <> (if IsLegacy (o p) then "spn:" +:+ ServerID (o p) else ServerID (o p)) ->
  Do unixNanos getOAuthConfig p w
    = tell [CacheRead (tokenCacheFile (o p))] (acquireNewToken p w)
  /\ (forall w0 : World,
        cachedToken p w0 adal.zero ->
        value (Do unixNanos getOAuthConfig p w0) = value (Do unixNanos getOAuthConfig p w)
        /\ events (Do unixNanos getOAuthConfig p w0)
           = events (Do unixNanos getOAuthConfig p w))
  /\ (forall t : adal.Token,
        In (CredentialWrite t) (events (Do unixNanos getOAuthConfig p w)) ->
        Token (provider p) = Ok t).
Proof.
  intros Hc Hr.
  assert (Hm : ~ matchesAudience p token).
  { intros [Heq _]. apply Hr. exact Heq. }
  assert (HDo := Do_miss unixNanos getOAuthConfig p w token Hc Hm).
  split; [exact HDo|]. split.
  - intros w0 Hc0.
    assert (Hm0 : ~ matchesAudience p adal.zero).
    { intros [_ Hz]. apply Hz. reflexivity. }
    rewrite HDo, (Do_miss unixNanos getOAuthConfig p w0 adal.zero Hc0 Hm0).
    destruct (acquireNewToken_value_events p w w0) as [Hv He].
    unfold tell. cbn [value events]. rewrite Hv, He. split; reflexivity.
  - intros t. rewrite HDo. unfold tell. cbn [events app In].
    intros [H|H]; [discriminate H|].
    exact (acquireNewToken_emits p w t H).
Qed.

Lemma Do_audience_mismatch_witness :
  let p := Sample.devicecode Sample.cacheOk Sample.refreshOk in
  let w := Sample.at1000 Sample.other in
  Do wholeSeconds Sample.getOAuthConfigOk p w
    = tell [CacheRead Sample.cacheFile] (acquireNewToken p w)
  /\ events (Do wholeSeconds Sample.getOAuthConfigOk p w)
     = [CacheRead Sample.cacheFile; ProviderToken;
        CacheWrite Sample.cacheFile Sample.fresh; CredentialWrite Sample.fresh].
Proof.
  intros p w. split.
  - apply (Do_audience_mismatch wholeSeconds Sample.getOAuthConfigOk p w Sample.other).
    + split; reflexivity.
    + discriminate.
  - reflexivity.
Defined.



(** ** The refresh branch *)

Section Refresh.

Variable unixNanos : adal.Number -> option Z.
Variable getOAuthConfig : string -> string -> bool -> result adal.OAuthConfig.
Variable p : execCredentialPlugin.
Variable w : World.
Variable token : adal.Token.

Abbreviation config :=
  (getOAuthConfig (Environment (o p)) (TenantID (o p)) (IsLegacy (o p))).
Abbreviation configured :=
  (GetOAuthConfig (Environment (o p)) (TenantID (o p)) (IsLegacy (o p))).
Abbreviation newRefresher cfg :=
  (refresher p cfg (ClientID (o p)) (ServerID (o p)) (TenantID (o p)) token).
Abbreviation constructed cfg :=
  (NewRefresher cfg (ClientID (o p)) (ServerID (o p)) (TenantID (o p)) token).

Lemma refreshToken_config_error (err : error) :
  config = Err err ->
  refreshToken getOAuthConfig p token w
  = mkOutcome (Some ("unable to get oAuthConfig: " +:+ err)) w [configured].
Proof. intros H. run. rewrite H. reflexivity. Qed.

Lemma refreshToken_refresher_error (cfg : adal.OAuthConfig) (err : error) :
  config = Ok cfg ->
  newRefresher cfg = Err err ->
  refreshToken getOAuthConfig p token w
  = mkOutcome (Some ("failed to get refresher: " +:+ err)) w
              [configured; constructed cfg].
Proof. intros H1 H2. run. rewrite H1. cbn. rewrite H2. reflexivity. Qed.

Lemma refreshToken_failed (cfg : adal.OAuthConfig) (r : TokenProvider) (err : error) :
  config = Ok cfg ->
  newRefresher cfg = Ok r ->
  Token r = Err err ->
  refreshToken getOAuthConfig p token w
  = tell [configured; constructed cfg; RefresherToken] (acquireNewToken p w).
Proof.
  intros H1 H2 H3. unfold refreshToken, tell, mbind, M_bind, bind, call.
  cbn [value world events]. rewrite H1. cbn [value world events].
  rewrite H2. cbn [value world events]. rewrite H3. reflexivity.
Qed.

Lemma refreshToken_refreshed (cfg : adal.OAuthConfig) (r : TokenProvider)
      (token' : adal.Token) :
  config = Ok cfg ->
  newRefresher cfg = Ok r ->
  Token r = Ok token' ->
  refreshToken getOAuthConfig p token w
  = tell [configured; constructed cfg; RefresherToken;
          CacheWrite (tokenCacheFile (o p)) token']
      (match WriteFailure (tokenCache p) (tokenCacheFile (o p)) token' with
       | Some err => mkOutcome (Some ("failed to write to store: " +:+ err)) w []
       | None =>
           mkOutcome (WriteResult (execCredentialWriter p) token')
                     (mkWorld (clock w) (<[tokenCacheFile (o p) := token']> (files w)))
                     [CredentialWrite token']
       end).
Proof.
  intros H1 H2 H3. run. rewrite H1. cbn [value world events].
  rewrite H2. cbn [value world events]. rewrite H3. cbn [value world events].
  destruct (WriteFailure _ _ _); reflexivity.
Qed.

(** With the cache in use, the full login that follows a provider's token. *)
Lemma acquireNewToken_acquired (t : adal.Token) :
  disableTokenCache p = false ->
  Token (provider p) = Ok t ->
  acquireNewToken p w
  = tell [ProviderToken; CacheWrite (tokenCacheFile (o p)) t]
      (match WriteFailure (tokenCache p) (tokenCacheFile (o p)) t with
       | Some err =>
           mkOutcome (Some ("unable to write to token cache: "
                            +:+ tokenCacheFile (o p) +:+ ", err: " +:+ err)) w []
       | None =>
           mkOutcome (WriteResult (execCredentialWriter p) t)
                     (mkWorld (clock w) (<[tokenCacheFile (o p) := t]> (files w)))
                     [CredentialWrite t]
       end).
Proof.
  intros Hd Ht. run. rewrite Ht, Hd. cbn [negb value world events].
  destruct (WriteFailure _ _ _); reflexivity.
Qed.

Lemma acquireNewToken_failed (err : error) :
  Token (provider p) = Err err ->
  acquireNewToken p w
  = mkOutcome (Some ("failed to get token: " +:+ err)) w [ProviderToken].
Proof. intros Ht. run. rewrite Ht. reflexivity. Qed.

End Refresh.

(** C2, as stated, fails: the refresh branch is entered, the refresher
    cannot be constructed, and [Do] returns that error without invoking
    the provider, although the provider would have returned a token. *)
Lemma refresher_construction_failure_is_fatal :
  let p := Sample.devicecode Sample.cacheOk Sample.noRefresher in
  let w := Sample.at1000 Sample.expiring in
  refreshEntered wholeSeconds p w Sample.expiring
  /\ Token (provider p) = Ok Sample.fresh
  /\ Do wholeSeconds Sample.getOAuthConfigOk p w
     = mkOutcome (Some "failed to get refresher: clientID cannot be empty") w
         [CacheRead Sample.cacheFile;
          GetOAuthConfig "AzurePublicCloud" "tenant" false;
          NewRefresher Sample.oauth "client" "R" "tenant" Sample.expiring]
  /\ ~ In ProviderToken (events (Do wholeSeconds Sample.getOAuthConfigOk p w)).
Proof.
  intros p w. split; [|split; [|split]].
  - repeat split; try reflexivity; discriminate.
  - reflexivity.
  - reflexivity.
  - cbn. intros H. repeat (destruct H as [H|H]; [discriminate H|]). exact H.
Qed.

(** C2, amended.  Once the refresh branch is entered: an error of
    [getOAuthConfig] or of the construction of the refresher ends [Do]
    with that error and without a login; an error of [refresher.Token()]
    is dropped, [Do] runs the full login, and what it returns is decided by
    the provider, the cache write and the credential writer alone. *)
Theorem Do_refresh_failure
  (unixNanos : adal.Number -> option Z)
  (getOAuthConfig : string -> string -> bool -> result adal.OAuthConfig)
  (p : execCredentialPlugin) (w : World) (token : adal.Token) :
  refreshEntered unixNanos p w token ->
  match getOAuthConfig (Environment (o p)) (TenantID (o p)) (IsLegacy (o p)) with
  | Err err =>
      Do unixNanos getOAuthConfig p w
      = mkOutcome (Some ("unable to get oAuthConfig: " +:+ err)) w
          [CacheRead (tokenCacheFile (o p));
           GetOAuthConfig (Environment (o p)) (TenantID (o p)) (IsLegacy (o p))]
  | Ok cfg =>
      match refresher p cfg (ClientID (o p)) (ServerID (o p)) (TenantID (o p)) token with
      | Err err =>
          Do unixNanos getOAuthConfig p w
          = mkOutcome (Some ("failed to get refresher: " +:+ err)) w
              [CacheRead (tokenCacheFile (o p));
               GetOAuthConfig (Environment (o p)) (TenantID (o p)) (IsLegacy (o p));
               NewRefresher cfg (ClientID (o p)) (ServerID (o p)) (TenantID (o p)) token]
      | Ok r =>
          forall err : error,
            Token r = Err err ->
            Do unixNanos getOAuthConfig p w
            = tell [CacheRead (tokenCacheFile (o p));
                    GetOAuthConfig (Environment (o p)) (TenantID (o p)) (IsLegacy (o p));
                    NewRefresher cfg (ClientID (o p)) (ServerID (o p)) (TenantID (o p))
                                 token;
                    RefresherToken]
                (acquireNewToken p w)
            /\ In ProviderToken (events (Do unixNanos getOAuthConfig p w))
            /\ value (Do unixNanos getOAuthConfig p w)
               = match Token (provider p) with
                 | Err err' => Some ("failed to get token: " +:+ err')
                 | Ok t =>
                     match WriteFailure (tokenCache p) (tokenCacheFile (o p)) t with
                     | Some err' =>
                         Some ("unable to write to token cache: "
                               +:+ tokenCacheFile (o p) +:+ ", err: " +:+ err')
                     | None => WriteResult (execCredentialWriter p) t
                     end
                 end
      end
  end.
Proof.
  intros Hre. assert (HDo := Do_refresh unixNanos getOAuthConfig p w token Hre).
  destruct Hre as ([Hd _] & _).
  destruct (getOAuthConfig _ _ _) as [cfg|err] eqn:Hcfg.
  - destruct (refresher p cfg _ _ _ token) as [r|err] eqn:Hr.
    + intros err Ht.
      rewrite (refreshToken_failed getOAuthConfig p w token cfg r err Hcfg Hr Ht) in HDo.
      rewrite HDo. split; [reflexivity|]. split.
      * destruct (acquireNewToken_first_event p w) as [rest Hrest].
        unfold tell. cbn [events app]. rewrite Hrest. cbn [In]. tauto.
      * unfold tell. cbn [value]. destruct (Token (provider p)) as [t|err'] eqn:Hp.
        -- rewrite (acquireNewToken_acquired p w t Hd Hp). unfold tell. cbn [value].
           destruct (WriteFailure _ _ _); reflexivity.
        -- rewrite (acquireNewToken_failed p w err' Hp). reflexivity.
    + rewrite (refreshToken_refresher_error getOAuthConfig p w token cfg err Hcfg Hr)
        in HDo. exact HDo.
  - rewrite (refreshToken_config_error getOAuthConfig p w token err Hcfg) in HDo.
    exact HDo.
Qed.

Lemma Do_refresh_failure_witness :
  let p := Sample.devicecode Sample.cacheOk Sample.refreshFails in
  let w := Sample.at1000 Sample.expiring in
  Do wholeSeconds Sample.getOAuthConfigOk p w
  = mkOutcome None (mkWorld (1000 * Second) {[ Sample.cacheFile := Sample.fresh ]})
      [CacheRead Sample.cacheFile;
       GetOAuthConfig "AzurePublicCloud" "tenant" false;
       NewRefresher Sample.oauth "client" "R" "tenant" Sample.expiring;
       RefresherToken; ProviderToken;
       CacheWrite Sample.cacheFile Sample.fresh; CredentialWrite Sample.fresh].
Proof.
  intros p w.
  assert (Hre : refreshEntered wholeSeconds p w Sample.expiring).
  { repeat split; try reflexivity; discriminate. }
  destruct (Do_refresh_failure wholeSeconds Sample.getOAuthConfigOk p w
              Sample.expiring Hre "invalid_grant" eq_refl) as [HDo _].
  rewrite HDo. vm_compute. reflexivity.
Defined.

(** C7, as stated, fails: the refresh succeeds, the cache refuses the
    write, and [Do] returns that error; the refreshed token is not handed
    to the credential writer and the cache file still holds the old
    token. *)
Lemma refreshed_token_lost_when_write_fails :
  let p := Sample.devicecode Sample.cacheWriteFails Sample.refreshOk in
  let w := Sample.at1000 Sample.expiring in
  refreshEntered wholeSeconds p w Sample.expiring
  /\ Sample.refreshOk = Ok (mkProvider (Ok Sample.refreshed))
  /\ Do wholeSeconds Sample.getOAuthConfigOk p w
     = mkOutcome (Some "failed to write to store: no space left on device") w
         [CacheRead Sample.cacheFile;
          GetOAuthConfig "AzurePublicCloud" "tenant" false;
          NewRefresher Sample.oauth "client" "R" "tenant" Sample.expiring;
          RefresherToken;
          CacheWrite Sample.cacheFile Sample.refreshed]
  /\ files (world (Do wholeSeconds Sample.getOAuthConfigOk p w)) !! Sample.cacheFile
     = Some Sample.expiring
  /\ ~ In (CredentialWrite Sample.refreshed)
         (events (Do wholeSeconds Sample.getOAuthConfigOk p w)).
Proof.
  intros p w. split; [|split; [|split; [|split]]].
  - repeat split; try reflexivity; discriminate.
  - reflexivity.
  - reflexivity.
  - reflexivity.
  - cbn. intros H. repeat (destruct H as [H|H]; [discriminate H|]). exact H.
Qed.

(** C7, amended.  When the refresh succeeds and the cache accepts the
    write, [Do] writes the refreshed token to the cache file, where it
    replaces the previous entry, and hands the refreshed token to the
    credential writer; the provider is not invoked, and a cached token
    that differs from the refreshed one is neither left in the cache nor
    emitted. *)
Theorem Do_refresh_success
  (unixNanos : adal.Number -> option Z)
  (getOAuthConfig : string -> string -> bool -> result adal.OAuthConfig)
  (p : execCredentialPlugin) (w : World) (token token' : adal.Token)
  (cfg : adal.OAuthConfig) (r : TokenProvider) :
  refreshEntered unixNanos p w token ->
  getOAuthConfig (Environment (o p)) (TenantID (o p)) (IsLegacy (o p)) = Ok cfg ->
  refresher p cfg (ClientID (o p)) (ServerID (o p)) (TenantID (o p)) token = Ok r ->
  Token r = Ok token' ->
  WriteFailure (tokenCache p) (tokenCacheFile (o p)) token' = None ->
  Do unixNanos getOAuthConfig p w
    = mkOutcome (WriteResult (execCredentialWriter p) token')
        (mkWorld (clock w) (<[tokenCacheFile (o p) := token']> (files w)))
        [CacheRead (tokenCacheFile (o p));
         GetOAuthConfig (Environment (o p)) (TenantID (o p)) (IsLegacy (o p));
         NewRefresher cfg (ClientID (o p)) (ServerID (o p)) (TenantID (o p)) token;
         RefresherToken;
         CacheWrite (tokenCacheFile (o p)) token';
         CredentialWrite token']
  /\ files (world (Do unixNanos getOAuthConfig p w)) !! tokenCacheFile (o p)
     = Some token'
  /\ (token' <> token ->
      files (world (Do unixNanos getOAuthConfig p w)) !! tokenCacheFile (o p)
        <> Some token
      /\ ~ In (CredentialWrite token) (events (Do unixNanos getOAuthConfig p w))).
Proof.
  intros Hre Hcfg Hr Ht Hw.
  assert (HDo := Do_refresh unixNanos getOAuthConfig p w token Hre).
  rewrite (refreshToken_refreshed getOAuthConfig p w token cfg r token' Hcfg Hr Ht),
    Hw in HDo.
  rewrite HDo. unfold tell. cbn [value world events app files].
  split; [reflexivity|]. rewrite lookup_insert_eq. split; [reflexivity|].
  intros Hne. split; [congruence|].
  cbn [In]. intros H.
  repeat (destruct H as [H|H]; [first [discriminate H | congruence]|]). exact H.
Qed.

Lemma Do_refresh_success_witness :
  let p := Sample.devicecode Sample.cacheOk Sample.refreshOk in
  let w := Sample.at1000 Sample.expiring in
  Do wholeSeconds Sample.getOAuthConfigOk p w
  = mkOutcome None
      (mkWorld (clock w) (<[Sample.cacheFile := Sample.refreshed]> (files w)))
      [CacheRead Sample.cacheFile;
       GetOAuthConfig "AzurePublicCloud" "tenant" false;
       NewRefresher Sample.oauth "client" "R" "tenant" Sample.expiring;
       RefresherToken;
       CacheWrite Sample.cacheFile Sample.refreshed;
       CredentialWrite Sample.refreshed].
Proof.
  intros p w.
  apply (Do_refresh_success wholeSeconds Sample.getOAuthConfigOk p w Sample.expiring
           Sample.refreshed Sample.oauth (mkProvider (Ok Sample.refreshed))).
  - repeat split; try reflexivity; discriminate.
  - reflexivity.
  - reflexivity.
  - reflexivity.
  - reflexivity.
Defined.

(** C8. Whenever [Do] asks the cache to store a token, which it does only
    with a token that the refresher or the provider has just returned, and
    that write fails, [Do] returns an error that carries the cause, hands
    nothing to the credential writer and leaves the cache as it was. *)
Theorem Do_cache_write_failure
  (unixNanos : adal.Number -> option Z)
  (getOAuthConfig : string -> string -> bool -> result adal.OAuthConfig)
  (p : execCredentialPlugin) (w : World) (f : string) (t : adal.Token) (err : error) :
  In (CacheWrite f t) (events (Do unixNanos getOAuthConfig p w)) ->
  WriteFailure (tokenCache p) f t = Some err ->
  (value (Do unixNanos getOAuthConfig p w)
     = Some ("failed to write to store: " +:+ err)
   \/ value (Do unixNanos getOAuthConfig p w)
      = Some ("unable to write to token cache: " +:+ tokenCacheFile (o p)
              +:+ ", err: " +:+ err))
  /\ (forall t' : adal.Token,
        ~ In (CredentialWrite t') (events (Do unixNanos getOAuthConfig p w)))
  /\ world (Do unixNanos getOAuthConfig p w) = w.
Proof.
  run. intros Hin Hw. repeat branch; cbn [In] in Hin;
    repeat (destruct Hin as [Hin|Hin]; try discriminate Hin); try contradiction;
    injection Hin as Hf Ht; subst;
    try congruence;
    (split;
     [ first [left; congruence | right; congruence]
     | split;
       [ intros t' H; cbn [In] in H;
         repeat (destruct H as [H|H]; try discriminate H); contradiction
       | reflexivity ] ]).
Qed.

Lemma Do_cache_write_failure_witness :
  let p := Sample.devicecode Sample.cacheWriteFails Sample.refreshOk in
  let w := Sample.at1000 Sample.expiring in
  (value (Do wholeSeconds Sample.getOAuthConfigOk p w)
     = Some ("failed to write to store: " +:+ "no space left on device")
   \/ value (Do wholeSeconds Sample.getOAuthConfigOk p w)
      = Some ("unable to write to token cache: " +:+ tokenCacheFile (o p)
              +:+ ", err: " +:+ "no space left on device"))
  /\ (forall t' : adal.Token,
        ~ In (CredentialWrite t') (events (Do wholeSeconds Sample.getOAuthConfigOk p w)))
  /\ world (Do wholeSeconds Sample.getOAuthConfigOk p w) = w.
Proof.
  intros p w.
  apply (Do_cache_write_failure wholeSeconds Sample.getOAuthConfigOk p w
           Sample.cacheFile Sample.refreshed "no space left on device").
  - simpl. do 4 right. left. reflexivity.
  - reflexivity.
Defined.

(** The same after a full login, on a cache miss. *)
Example cache_write_failure_after_login :
  let p := Sample.devicecode Sample.cacheWriteFails Sample.refreshOk in
  Do wholeSeconds Sample.getOAuthConfigOk p Sample.emptyAt1000
  = mkOutcome
      (Some "unable to write to token cache: /home/u/.kube/cache/kubelogin/azure.json, err: no space left on device")
      Sample.emptyAt1000
      [CacheRead Sample.cacheFile; ProviderToken;
       CacheWrite Sample.cacheFile Sample.fresh].
Proof. reflexivity. Qed.

(** C10. In every run of [Do] the provider's [Token()] is called at most
    once; it is not called when the cached token is emitted because it is
    still valid, nor when the refresher has returned a token. *)
Theorem Do_provider_at_most_once
  (unixNanos : adal.Number -> option Z)
  (getOAuthConfig : string -> string -> bool -> result adal.OAuthConfig)
  (p : execCredentialPlugin) (w : World) :
  (calls isProviderToken (events (Do unixNanos getOAuthConfig p w)) <= 1)%nat
  /\ (forall token : adal.Token,
        cachedToken p w token ->
        matchesAudience p token ->
        ~ aboutToExpire unixNanos w token ->
        calls isProviderToken (events (Do unixNanos getOAuthConfig p w)) = 0%nat)
  /\ (forall (token token' : adal.Token) (cfg : adal.OAuthConfig) (r : TokenProvider),
        refreshEntered unixNanos p w token ->
        getOAuthConfig (Environment (o p)) (TenantID (o p)) (IsLegacy (o p)) = Ok cfg ->
        refresher p cfg (ClientID (o p)) (ServerID (o p)) (TenantID (o p)) token = Ok r ->
        Token r = Ok token' ->
        calls isProviderToken (events (Do unixNanos getOAuthConfig p w)) = 0%nat).
Proof.
  split; [|split].
  - run. repeat branch; unfold calls; cbn [List.filter isProviderToken length]; lia.
  - intros token Hc Hm He.
    rewrite (Do_hit unixNanos getOAuthConfig p w token Hc Hm He). reflexivity.
  - intros token token' cfg r Hre Hcfg Hr Ht.
    rewrite (Do_refresh unixNanos getOAuthConfig p w token Hre),
      (refreshToken_refreshed getOAuthConfig p w token cfg r token' Hcfg Hr Ht).
    destruct (WriteFailure _ _ _); reflexivity.
Qed.

(** The three cases of C10 on the sample data: a full login calls the
    provider once, the other two runs never. *)
Example provider_calls :
  let p := Sample.devicecode Sample.cacheOk Sample.refreshOk in
  calls isProviderToken
    (events (Do wholeSeconds Sample.getOAuthConfigOk p Sample.emptyAt1000)) = 1%nat
  /\ calls isProviderToken
       (events (Do wholeSeconds Sample.getOAuthConfigOk p (Sample.at1000 Sample.valid)))
     = 0%nat
  /\ calls isProviderToken
       (events (Do wholeSeconds Sample.getOAuthConfigOk p (Sample.at1000 Sample.expiring)))
     = 0%nat.
Proof. repeat split. Qed.

(** ** Login methods without a cache *)

Lemma acquireNewToken_without_cache (p : execCredentialPlugin) (w : World) :
  disableTokenCache p = true ->
  calls isCacheAccess (events (acquireNewToken p w)) = 0%nat
  /\ world (acquireNewToken p w) = w.
Proof.
  intros Hd. run. rewrite Hd. cbn [negb].
  repeat branch; split; reflexivity.
Qed.

(** C5. A plugin that [New] builds for the login method service principal,
    managed identity, workload identity or Azure CLI calls neither
    [tokenCache.Read] nor [tokenCache.Write] in [Do], whatever the cache
    files hold, and leaves them as they are: the run is the full login. *)
Theorem Do_login_methods_without_cache
  (ServicePrincipalLogin MSILogin WorkloadIdentityLogin AzureCLILogin : string)
  (newTokenProvider : Options -> result TokenProvider)
  (defaultTokenCache : TokenCache)
  (defaultExecCredentialWriter : ExecCredentialWriter)
  (newManualToken :
     adal.OAuthConfig -> string -> string -> string -> adal.Token -> result TokenProvider)
  (unixNanos : adal.Number -> option Z)
  (getOAuthConfig : string -> string -> bool -> result adal.OAuthConfig)
  (opts : Options) (p : execCredentialPlugin) (w : World) :
  New ServicePrincipalLogin MSILogin WorkloadIdentityLogin AzureCLILogin
      newTokenProvider defaultTokenCache defaultExecCredentialWriter newManualToken
      opts = Ok p ->
  LoginMethod opts = ServicePrincipalLogin
  \/ LoginMethod opts = MSILogin
  \/ LoginMethod opts = WorkloadIdentityLogin
  \/ LoginMethod opts = AzureCLILogin ->
  calls isCacheAccess (events (Do unixNanos getOAuthConfig p w)) = 0%nat
  /\ files (world (Do unixNanos getOAuthConfig p w)) = files w
  /\ Do unixNanos getOAuthConfig p w = acquireNewToken p w.
Proof.
  intros HNew Hm.
  assert (Hd : disableTokenCache p = true).
  { unfold New in HNew. destruct (newTokenProvider opts); [|discriminate HNew].
    injection HNew as <-. cbn [disableTokenCache].
    assert (Hor : String.eqb (LoginMethod opts) ServicePrincipalLogin
                  || String.eqb (LoginMethod opts) MSILogin
                  || String.eqb (LoginMethod opts) WorkloadIdentityLogin
                  || String.eqb (LoginMethod opts) AzureCLILogin = true).
    { rewrite !orb_true_iff, !String.eqb_eq. tauto. }
    rewrite Hor. reflexivity. }
  rewrite (Do_cache_disabled unixNanos getOAuthConfig p w Hd).
  destruct (acquireNewToken_without_cache p w Hd) as [Hc Hw].
  rewrite Hw. repeat split. exact Hc.
Qed.

Lemma Do_login_methods_without_cache_witness :
  let p := Sample.plugin (Sample.options false "spn") Sample.cacheOk (Ok Sample.fresh)
                         Sample.refreshOk true in
  let w := Sample.at1000 Sample.valid in
  calls isCacheAccess (events (Do wholeSeconds Sample.getOAuthConfigOk p w)) = 0%nat
  /\ files (world (Do wholeSeconds Sample.getOAuthConfigOk p w)) = files w
  /\ Do wholeSeconds Sample.getOAuthConfigOk p w = acquireNewToken p w.
Proof.
  intros p w.
  apply (Do_login_methods_without_cache "spn" "msi" "workloadidentity" "azurecli"
           (fun _ => Ok (mkProvider (Ok Sample.fresh))) Sample.cacheOk Sample.writerOk
           (fun _ _ _ _ _ => Sample.refreshOk) wholeSeconds Sample.getOAuthConfigOk
           (Sample.options false "spn") p w).
  - reflexivity.
  - left. reflexivity.
Defined.

(** The scenario of the specification: no cache file, service principal. *)
Example scenario_service_principal :
  match Sample.new (Sample.options false "spn") with
  | Ok p =>
      Do wholeSeconds Sample.getOAuthConfigOk p Sample.emptyAt1000
      = mkOutcome None Sample.emptyAt1000 [ProviderToken; CredentialWrite Sample.fresh]
  | Err _ => False
  end.
Proof. reflexivity. Qed.

Lemma Do_provider_at_most_once_witness :
  let p := Sample.devicecode Sample.cacheOk Sample.refreshOk in
  (calls isProviderToken
     (events (Do wholeSeconds Sample.getOAuthConfigOk p Sample.emptyAt1000)) <= 1)%nat
  /\ calls isProviderToken
       (events (Do wholeSeconds Sample.getOAuthConfigOk p (Sample.at1000 Sample.valid)))
     = 0%nat
  /\ calls isProviderToken
       (events (Do wholeSeconds Sample.getOAuthConfigOk p (Sample.at1000 Sample.expiring)))
     = 0%nat.
Proof.
  intros p. split; [|split].
  - apply (Do_provider_at_most_once wholeSeconds Sample.getOAuthConfigOk p
             Sample.emptyAt1000).
  - apply (proj1 (proj2 (Do_provider_at_most_once wholeSeconds Sample.getOAuthConfigOk
                           p (Sample.at1000 Sample.valid))) Sample.valid).
    + split; reflexivity.
    + split; [reflexivity | discriminate].
    + unfold aboutToExpire. vm_compute. intros H. apply H. reflexivity.
  - apply (proj2 (proj2 (Do_provider_at_most_once wholeSeconds Sample.getOAuthConfigOk
                           p (Sample.at1000 Sample.expiring)))
             Sample.expiring Sample.refreshed Sample.oauth
             (mkProvider (Ok Sample.refreshed))).
    + repeat split; try reflexivity; discriminate.
    + reflexivity.
    + reflexivity.
    + reflexivity.
Defined.

(** ** Which cached tokens count as present *)

(** C9, as stated, fails.  A cached token with an empty access token and
    an empty expiration, but with a refresh token and the resource asked
    for, is not handled as a cache miss: [Do] refreshes it, where a run on
    a cache miss logs in.  A cached token with an empty access token and an
    expiration an hour away is handed to the credential writer as it is. *)
Lemma token_without_access_token_is_present :
  let p := Sample.devicecode Sample.cacheOk Sample.refreshOk in
  (adal.AccessToken Sample.onlyRefresh = "" /\ adal.ExpiresOn Sample.onlyRefresh = "")
  /\ events (Do wholeSeconds Sample.getOAuthConfigOk p (Sample.at1000 Sample.onlyRefresh))
     = [CacheRead Sample.cacheFile;
        GetOAuthConfig "AzurePublicCloud" "tenant" false;
        NewRefresher Sample.oauth "client" "R" "tenant" Sample.onlyRefresh;
        RefresherToken;
        CacheWrite Sample.cacheFile Sample.refreshed;
        CredentialWrite Sample.refreshed]
  /\ events (Do wholeSeconds Sample.getOAuthConfigOk p Sample.emptyAt1000)
     = [CacheRead Sample.cacheFile; ProviderToken;
        CacheWrite Sample.cacheFile Sample.fresh; CredentialWrite Sample.fresh]
  /\ adal.AccessToken Sample.noAccess = ""
  /\ Do wholeSeconds Sample.getOAuthConfigOk p (Sample.at1000 Sample.noAccess)
     = mkOutcome None (Sample.at1000 Sample.noAccess)
         [CacheRead Sample.cacheFile; CredentialWrite Sample.noAccess].
Proof. repeat split. Qed.

(** C9, amended.  [Do] treats a cached token as present exactly when its
    resource is the target audience and it is not the zero token, that is,
    when one of its fields is not empty.  A present token is emitted when
    it is not about to expire, refreshed when it is and carries a refresh
    token, and replaced by a full login otherwise; every other cached
    token is handled like the zero token of a cache miss. *)
Theorem Do_present_token
  (unixNanos : adal.Number -> option Z)
  (getOAuthConfig : string -> string -> bool -> result adal.OAuthConfig)
  (p : execCredentialPlugin) (w : World) (token : adal.Token) :
  cachedToken p w token ->
  (adal.Resource token = targetAudience (o p) /\ token <> adal.zero ->
   Do unixNanos getOAuthConfig p w
   = tell [CacheRead (tokenCacheFile (o p))]
       (if negb (adal.WillExpireIn unixNanos (clock w) token expirationDelta)
        then mkOutcome (WriteResult (execCredentialWriter p) token) w
                       [CredentialWrite token]
        else if negb (String.eqb (adal.RefreshToken token) "")
             then refreshToken getOAuthConfig p token w
             else acquireNewToken p w))
  /\ (~ (adal.Resource token = targetAudience (o p) /\ token <> adal.zero) ->
      Do unixNanos getOAuthConfig p w
        = tell [CacheRead (tokenCacheFile (o p))] (acquireNewToken p w)
      /\ forall w0 : World,
           cachedToken p w0 adal.zero ->
           value (Do unixNanos getOAuthConfig p w0)
             = value (Do unixNanos getOAuthConfig p w)
           /\ events (Do unixNanos getOAuthConfig p w0)
              = events (Do unixNanos getOAuthConfig p w)).
Proof.
  intros Hc. split.
  - intros Hm. rewrite (Do_cached unixNanos getOAuthConfig p w token Hc).
    apply (guard_true p token) in Hm. rewrite Hm. reflexivity.
  - intros Hm.
    assert (HDo := Do_miss unixNanos getOAuthConfig p w token Hc Hm).
    split; [exact HDo|].
    intros w0 Hc0.
    assert (Hm0 : ~ matchesAudience p adal.zero).
    { intros [_ Hz]. apply Hz. reflexivity. }
    rewrite HDo, (Do_miss unixNanos getOAuthConfig p w0 adal.zero Hc0 Hm0).
    destruct (acquireNewToken_value_events p w w0) as [Hv He].
    unfold tell. cbn [value events]. rewrite Hv, He. split; reflexivity.
Qed.

Lemma Do_present_token_witness :
  let p := Sample.devicecode Sample.cacheOk Sample.refreshOk in
  let w := Sample.at1000 Sample.onlyRefresh in
  Do wholeSeconds Sample.getOAuthConfigOk p w
  = tell [CacheRead Sample.cacheFile]
      (refreshToken Sample.getOAuthConfigOk p Sample.onlyRefresh w).
Proof.
  intros p w.
  apply (proj1 (Do_present_token wholeSeconds Sample.getOAuthConfigOk p w
                  Sample.onlyRefresh (conj eq_refl eq_refl))).
  split; [reflexivity | discriminate].
Defined.

(** ** The scenarios of the specification *)

Example scenario_cache_hit :
  let p := Sample.devicecode Sample.cacheOk Sample.refreshOk in
  Do wholeSeconds Sample.getOAuthConfigOk p (Sample.at1000 Sample.valid)
  = mkOutcome None (Sample.at1000 Sample.valid)
      [CacheRead Sample.cacheFile; CredentialWrite Sample.valid].
Proof. reflexivity. Qed.

Example scenario_legacy_audience :
  let p := Sample.plugin (Sample.options true "devicecode") Sample.cacheOk
                         (Ok Sample.fresh) Sample.refreshOk false in
  targetAudience (o p) = "spn:R"
  /\ events (Do wholeSeconds Sample.getOAuthConfigOk p (Sample.at1000 Sample.valid))
     = [CacheRead Sample.cacheFile; ProviderToken;
        CacheWrite Sample.cacheFile Sample.fresh; CredentialWrite Sample.fresh]
  /\ events (Do wholeSeconds Sample.getOAuthConfigOk p
               (Sample.at1000 (Sample.cached "spn:R" "4600" "rt")))
     = [CacheRead Sample.cacheFile;
        CredentialWrite (Sample.cached "spn:R" "4600" "rt")].
Proof. repeat split. Qed.

Example scenario_boundary :
  let p := Sample.devicecode Sample.cacheOk Sample.refreshOk in
  events (Do wholeSeconds Sample.getOAuthConfigOk p
            (Sample.at1000 (Sample.cached "R" "1060" "")))
  = [CacheRead Sample.cacheFile; ProviderToken;
     CacheWrite Sample.cacheFile Sample.fresh; CredentialWrite Sample.fresh]
  /\ events (Do wholeSeconds Sample.getOAuthConfigOk p
               (Sample.at1000 (Sample.cached "R" "1061" "")))
     = [CacheRead Sample.cacheFile; CredentialWrite (Sample.cached "R" "1061" "")].
Proof. repeat split. Qed.

(** ** Further properties of [Do] and [New] *)

(** Membership in the events of a run, case by case. *)
Ltac in_cases H :=
  cbn [In] in H;
  repeat (destruct H as [H|H]; try discriminate H);
  try contradiction.



(** A credential leaves the refresh branch only if the refresher or the
    provider returned it. *)
Lemma refreshToken_emits
  (getOAuthConfig : string -> string -> bool -> result adal.OAuthConfig)
  (p : execCredentialPlugin) (w : World) (token t : adal.Token) :
  In (CredentialWrite t) (events (refreshToken getOAuthConfig p token w)) ->
  (exists (cfg : adal.OAuthConfig) (r : TokenProvider),
      getOAuthConfig (Environment (o p)) (TenantID (o p)) (IsLegacy (o p)) = Ok cfg
      /\ refresher p cfg (ClientID (o p)) (ServerID (o p)) (TenantID (o p)) token = Ok r
      /\ Token r = Ok t)
  \/ Token (provider p) = Ok t.
Proof.
  run. intros H. repeat branch; in_cases H; injection H as Ht; subst;
    first [ right; congruence | left; eexists; eexists; repeat split; eassumption ].
Qed.

(** X1. Every credential that [Do] hands to the writer is the cached token,
    and then it matches the audience, is not the zero token and has more
    than [expirationDelta] left, or the token the refresher returned in the
    refresh branch, or the token the provider returned. *)
Theorem Do_emits_valid_or_fresh
  (unixNanos : adal.Number -> option Z)
  (getOAuthConfig : string -> string -> bool -> result adal.OAuthConfig)
  (p : execCredentialPlugin) (w : World) (t : adal.Token) :
  In (CredentialWrite t) (events (Do unixNanos getOAuthConfig p w)) ->
  (cachedToken p w t /\ matchesAudience p t /\ ~ aboutToExpire unixNanos w t)
  \/ (exists (token : adal.Token) (cfg : adal.OAuthConfig) (r : TokenProvider),
        refreshEntered unixNanos p w token
        /\ getOAuthConfig (Environment (o p)) (TenantID (o p)) (IsLegacy (o p)) = Ok cfg
        /\ refresher p cfg (ClientID (o p)) (ServerID (o p)) (TenantID (o p)) token
           = Ok r
        /\ Token r = Ok t)
  \/ Token (provider p) = Ok t.
Proof.
  destruct (disableTokenCache p) eqn:Hd.
  - rewrite (Do_cache_disabled unixNanos getOAuthConfig p w Hd).
    intros H. right. right. exact (acquireNewToken_emits p w t H).
  - destruct (Read (tokenCache p) (tokenCacheFile (o p)) w) as [a|err] eqn:Hr.
    + assert (Hc : cachedToken p w a) by (split; assumption).
      rewrite (Do_cached unixNanos getOAuthConfig p w a Hc).
      unfold tell. cbn [events app In]. intros [H|H]; [discriminate H|].
      destruct (String.eqb (adal.Resource a) (targetAudience (o p))
                && negb (adal.IsZero a)) eqn:Hg.
      * apply guard_true in Hg.
        destruct (adal.WillExpireIn unixNanos (clock w) a expirationDelta) eqn:He;
          cbn [negb] in H.
        -- apply WillExpireIn_true in He.
           destruct (negb (String.eqb (adal.RefreshToken a) "")) eqn:Hrt.
           ++ apply RefreshToken_nonempty in Hrt.
              destruct (refreshToken_emits getOAuthConfig p w a t H)
                as [(cfg & r & H1 & H2 & H3)|Hp].
              ** right. left. exists a, cfg, r.
                 split; [exact (conj Hc (conj Hg (conj He Hrt)))|].
                 repeat split; assumption.
              ** right. right. exact Hp.
           ++ right. right. exact (acquireNewToken_emits p w t H).
        -- apply WillExpireIn_false in He. cbn [events In] in H.
           destruct H as [H|[]]. injection H as <-. left.
           split; [exact Hc|]. split; [exact Hg|]. unfold aboutToExpire. lia.
      * right. right. exact (acquireNewToken_emits p w t H).
    + rewrite (Do_read_error unixNanos getOAuthConfig p w err Hd Hr).
      cbn [events In]. intros [H|[]]. discriminate H.
Qed.

Lemma Do_emits_valid_or_fresh_witness :
  let p := Sample.devicecode Sample.cacheOk Sample.refreshOk in
  let w := Sample.at1000 Sample.valid in
  (cachedToken p w Sample.valid /\ matchesAudience p Sample.valid
   /\ ~ aboutToExpire wholeSeconds w Sample.valid)
  \/ (exists (token : adal.Token) (cfg : adal.OAuthConfig) (r : TokenProvider),
        refreshEntered wholeSeconds p w token
        /\ Sample.getOAuthConfigOk (Environment (o p)) (TenantID (o p)) (IsLegacy (o p))
           = Ok cfg
        /\ refresher p cfg (ClientID (o p)) (ServerID (o p)) (TenantID (o p)) token
           = Ok r
        /\ Token r = Ok Sample.valid)
  \/ Token (provider p) = Ok Sample.valid.
Proof.
  intros p w.
  apply (Do_emits_valid_or_fresh wholeSeconds Sample.getOAuthConfigOk p w Sample.valid).
  simpl. right. left. reflexivity.
Defined.

(** X2. When the provider is asked for a token and fails, [Do] returns
    "failed to get token" with the provider's error; nothing is written to
    the cache afterwards, nothing is handed to the credential writer and
    the world is left as it was. *)
Theorem Do_provider_failure
  (unixNanos : adal.Number -> option Z)
  (getOAuthConfig : string -> string -> bool -> result adal.OAuthConfig)
  (p : execCredentialPlugin) (w : World) (err : error) :
  In ProviderToken (events (Do unixNanos getOAuthConfig p w)) ->
  Token (provider p) = Err err ->
  value (Do unixNanos getOAuthConfig p w) = Some ("failed to get token: " +:+ err)
  /\ calls isCacheWrite (events (Do unixNanos getOAuthConfig p w)) = 0%nat
  /\ calls isCredentialWrite (events (Do unixNanos getOAuthConfig p w)) = 0%nat
  /\ world (Do unixNanos getOAuthConfig p w) = w.
Proof.
  run. intros Hin Hp. rewrite Hp in *. cbn [value world events negb app] in *.
  repeat branch; in_cases Hin; repeat split.
Qed.

Lemma Do_provider_failure_witness :
  let p := Sample.plugin (Sample.options false "devicecode") Sample.cacheOk
                         (Err "AADSTS70016: authorization pending")
                         Sample.refreshFails false in
  let w := Sample.at1000 Sample.expiring in
  value (Do wholeSeconds Sample.getOAuthConfigOk p w)
    = Some ("failed to get token: " +:+ "AADSTS70016: authorization pending")
  /\ calls isCacheWrite (events (Do wholeSeconds Sample.getOAuthConfigOk p w)) = 0%nat
  /\ calls isCredentialWrite (events (Do wholeSeconds Sample.getOAuthConfigOk p w))
     = 0%nat
  /\ world (Do wholeSeconds Sample.getOAuthConfigOk p w) = w.
Proof.
  intros p w.
  apply (Do_provider_failure wholeSeconds Sample.getOAuthConfigOk p w
           "AADSTS70016: authorization pending").
  - simpl. do 4 right. left. reflexivity.
  - reflexivity.
Defined.

(** X3. [Do] returns [nil] exactly when it handed a credential to the
    writer and the writer returned [nil]: there is no success without an
    emitted credential. *)
Theorem Do_success_iff_emitted
  (unixNanos : adal.Number -> option Z)
  (getOAuthConfig : string -> string -> bool -> result adal.OAuthConfig)
  (p : execCredentialPlugin) (w : World) :
  value (Do unixNanos getOAuthConfig p w) = None
  <-> exists t : adal.Token,
        In (CredentialWrite t) (events (Do unixNanos getOAuthConfig p w))
        /\ WriteResult (execCredentialWriter p) t = None.
Proof.
  run. repeat branch; (split;
    [ intros H; first [ discriminate H
                      | eexists; split; [cbn [In]; eauto 10 | exact H] ]
    | intros (t & Hin & Hw); in_cases Hin;
      injection Hin as Ht; subst; exact Hw ]).
Qed.

(** X4. A credential write is the last call of a run and there is at most
    one; what [Do] returns is then what the writer returned. *)
Theorem Do_credential_write_is_last
  (unixNanos : adal.Number -> option Z)
  (getOAuthConfig : string -> string -> bool -> result adal.OAuthConfig)
  (p : execCredentialPlugin) (w : World) (t : adal.Token) :
  In (CredentialWrite t) (events (Do unixNanos getOAuthConfig p w)) ->
  (exists before : list Event,
      events (Do unixNanos getOAuthConfig p w) = (before ++ [CredentialWrite t])%list
      /\ calls isCredentialWrite before = 0%nat)
  /\ value (Do unixNanos getOAuthConfig p w) = WriteResult (execCredentialWriter p) t.
Proof.
  run. intros Hin. repeat branch; in_cases Hin; injection Hin as Ht; subst;
    (split; [|reflexivity]).
  all: match goal with
       | |- exists before, ?l = _ /\ _ =>
           exists (removelast l); split; reflexivity
       end.
Qed.

Lemma Do_credential_write_is_last_witness :
  let p := Sample.devicecode Sample.cacheOk Sample.refreshOk in
  let w := Sample.at1000 Sample.expiring in
  (exists before : list Event,
      events (Do wholeSeconds Sample.getOAuthConfigOk p w)
      = (before ++ [CredentialWrite Sample.refreshed])%list
      /\ calls isCredentialWrite before = 0%nat)
  /\ value (Do wholeSeconds Sample.getOAuthConfigOk p w)
     = WriteResult (execCredentialWriter p) Sample.refreshed.
Proof.
  intros p w.
  apply (Do_credential_write_is_last wholeSeconds Sample.getOAuthConfigOk p w
           Sample.refreshed).
  simpl. do 5 right. left. reflexivity.
Defined.



(** The cached token that passes the guard is the content of the cache
    file. *)
Lemma Read_nonzero (c : TokenCache) (f : string) (w : World) (t : adal.Token) :
  Read c f w = Ok t -> t <> adal.zero -> files w !! f = Some t.
Proof.
  unfold Read. destruct (ReadFailure c f); [discriminate|].
  destruct (files w !! f) as [t'|]; cbn; intros H Hz.
  - congruence.
  - exfalso. apply Hz. congruence.
Qed.

Lemma Do_emitted_is_cached
  (unixNanos : adal.Number -> option Z)
  (getOAuthConfig : string -> string -> bool -> result adal.OAuthConfig)
  (p : execCredentialPlugin) (w : World) (t : adal.Token) :
  disableTokenCache p = false ->
  In (CredentialWrite t) (events (Do unixNanos getOAuthConfig p w)) ->
  files (world (Do unixNanos getOAuthConfig p w)) !! tokenCacheFile (o p) = Some t.
Proof.
  intros Hd. run. rewrite Hd. cbn [negb value world events app].
  intros Hin. repeat branch; in_cases Hin; injection Hin as Ht; subst;
    cbn [files]; try apply lookup_insert_eq.
  all: match goal with
       | Hr : Read _ _ _ = Ok ?a,
         Hg : (_ && negb (adal.IsZero ?a)) = true |- _ =>
           apply (Read_nonzero _ _ _ _ Hr);
           apply andb_true_iff in Hg; destruct Hg as [_ Hz];
           apply negb_true_iff in Hz; apply IsZero_false; exact Hz
       end.
Qed.

(** X7. With the cache in use, the credential that [Do] hands to the writer
    is the token the cache file holds when [Do] returns: a token from the
    refresher or the provider is stored before it is emitted. *)
Theorem Do_emits_what_the_cache_holds
  (unixNanos : adal.Number -> option Z)
  (getOAuthConfig : string -> string -> bool -> result adal.OAuthConfig)
  (p : execCredentialPlugin) (w : World) (t : adal.Token) :
  disableTokenCache p = false ->
  In (CredentialWrite t) (events (Do unixNanos getOAuthConfig p w)) ->
  files (world (Do unixNanos getOAuthConfig p w)) !! tokenCacheFile (o p) = Some t
  /\ (ReadFailure (tokenCache p) (tokenCacheFile (o p)) = None ->
      Read (tokenCache p) (tokenCacheFile (o p)) (world (Do unixNanos getOAuthConfig p w))
      = Ok t).
Proof.
  intros Hd Hin.
  assert (H := Do_emitted_is_cached unixNanos getOAuthConfig p w t Hd Hin).
  split; [exact H|]. intros Hr. unfold Read. rewrite Hr, H. reflexivity.
Qed.

Lemma Do_emits_what_the_cache_holds_witness :
  let p := Sample.devicecode Sample.cacheOk Sample.refreshFails in
  let w := Sample.at1000 Sample.expiring in
  files (world (Do wholeSeconds Sample.getOAuthConfigOk p w)) !! tokenCacheFile (o p)
  = Some Sample.fresh
  /\ (ReadFailure (tokenCache p) (tokenCacheFile (o p)) = None ->
      Read (tokenCache p) (tokenCacheFile (o p))
           (world (Do wholeSeconds Sample.getOAuthConfigOk p w))
      = Ok Sample.fresh).
Proof.
  intros p w.
  apply (Do_emits_what_the_cache_holds wholeSeconds Sample.getOAuthConfigOk p w
           Sample.fresh).
  - reflexivity.
  - simpl. do 6 right. left. reflexivity.
Defined.

(** X8. Running [Do] again.  If a run with the cache in use emitted a
    token, and that token is for the target audience, not the zero token
    and not about to expire when [Do] runs again on the files the first
    run left, then the second run reads the cache, hands the same token to
    the writer and calls nothing else. *)
Theorem Do_again_uses_the_cache
  (unixNanos : adal.Number -> option Z)
  (getOAuthConfig : string -> string -> bool -> result adal.OAuthConfig)
  (p : execCredentialPlugin) (w w' : World) (t : adal.Token) :
  disableTokenCache p = false ->
  ReadFailure (tokenCache p) (tokenCacheFile (o p)) = None ->
  In (CredentialWrite t) (events (Do unixNanos getOAuthConfig p w)) ->
  files w' = files (world (Do unixNanos getOAuthConfig p w)) ->
  matchesAudience p t ->
  ~ aboutToExpire unixNanos w' t ->
  Do unixNanos getOAuthConfig p w'
  = mkOutcome (WriteResult (execCredentialWriter p) t) w'
              [CacheRead (tokenCacheFile (o p)); CredentialWrite t].
Proof.
  intros Hd Hr Hin Hf Hm He.
  assert (H := Do_emitted_is_cached unixNanos getOAuthConfig p w t Hd Hin).
  apply Do_hit; [|exact Hm|exact He].
  split; [exact Hd|]. unfold Read. rewrite Hr, Hf, H. reflexivity.
Qed.

Lemma Do_again_uses_the_cache_witness :
  let p := Sample.devicecode Sample.cacheOk Sample.refreshOk in
  let w := Sample.emptyAt1000 in
  let w' := mkWorld (2000 * Second)
                    (files (world (Do wholeSeconds Sample.getOAuthConfigOk p w))) in
  Do wholeSeconds Sample.getOAuthConfigOk p w'
  = mkOutcome None w' [CacheRead Sample.cacheFile; CredentialWrite Sample.fresh].
Proof.
  intros p w w'.
  apply (Do_again_uses_the_cache wholeSeconds Sample.getOAuthConfigOk p w w'
           Sample.fresh).
  - reflexivity.
  - reflexivity.
  - simpl. do 3 right. left. reflexivity.
  - reflexivity.
  - split; [reflexivity | discriminate].
  - unfold aboutToExpire. vm_compute. intros H. apply H. reflexivity.
Defined.





(** X11. For every login method other than the four that switch the cache
    off, the plugin that [New] builds has the cache in use, and [Do] starts
    by reading the [tokenCacheFile] of the options given to [New]. *)
Theorem Do_other_login_methods_read_the_cache
  (ServicePrincipalLogin MSILogin WorkloadIdentityLogin AzureCLILogin : string)
  (newTokenProvider : Options -> result TokenProvider)
  (defaultTokenCache : TokenCache)
  (defaultExecCredentialWriter : ExecCredentialWriter)
  (newManualToken :
     adal.OAuthConfig -> string -> string -> string -> adal.Token -> result TokenProvider)
  (unixNanos : adal.Number -> option Z)
  (getOAuthConfig : string -> string -> bool -> result adal.OAuthConfig)
  (opts : Options) (p : execCredentialPlugin) (w : World) :
  New ServicePrincipalLogin MSILogin WorkloadIdentityLogin AzureCLILogin
      newTokenProvider defaultTokenCache defaultExecCredentialWriter newManualToken
      opts = Ok p ->
  LoginMethod opts <> ServicePrincipalLogin ->
  LoginMethod opts <> MSILogin ->
  LoginMethod opts <> WorkloadIdentityLogin ->
  LoginMethod opts <> AzureCLILogin ->
  disableTokenCache p = false
  /\ exists rest : list Event,
       events (Do unixNanos getOAuthConfig p w) = CacheRead (tokenCacheFile opts) :: rest.
Proof.
  intros HNew H1 H2 H3 H4.
  unfold New in HNew. destruct (newTokenProvider opts); [|discriminate HNew].
  injection HNew as <-. cbn [disableTokenCache].
  apply String.eqb_neq in H1, H2, H3, H4. rewrite H1, H2, H3, H4. cbn [orb].
  split; [reflexivity|].
  run. cbn [disableTokenCache negb value world events app o tokenCache].
  eexists. reflexivity.
Qed.

Lemma Do_other_login_methods_read_the_cache_witness :
  let p := Sample.plugin (Sample.options false "devicecode") Sample.cacheOk
                         (Ok Sample.fresh) Sample.refreshOk false in
  disableTokenCache p = false
  /\ exists rest : list Event,
       events (Do wholeSeconds Sample.getOAuthConfigOk p Sample.emptyAt1000)
       = CacheRead (tokenCacheFile (Sample.options false "devicecode")) :: rest.
Proof.
  intros p.
  apply (Do_other_login_methods_read_the_cache "spn" "msi" "workloadidentity" "azurecli"
           (fun _ => Ok (mkProvider (Ok Sample.fresh))) Sample.cacheOk Sample.writerOk
           (fun _ _ _ _ _ => Sample.refreshOk) wholeSeconds Sample.getOAuthConfigOk
           (Sample.options false "devicecode") p Sample.emptyAt1000).
  - reflexivity.
  - discriminate.
  - discriminate.
  - discriminate.
  - discriminate.
Defined.

(** X12. The full login with the cache in use.  When the cached token is
    not usable (no file, another audience) and the provider returns a
    token that the cache accepts, [Do] stores that token and hands it to
    the writer as it is: the provider's token is not checked against the
    audience or the clock. *)
Theorem Do_full_login
  (unixNanos : adal.Number -> option Z)
  (getOAuthConfig : string -> string -> bool -> result adal.OAuthConfig)
  (p : execCredentialPlugin) (w : World) (token t : adal.Token) :
  cachedToken p w token ->
  ~ matchesAudience p token ->
  Token (provider p) = Ok t ->
  WriteFailure (tokenCache p) (tokenCacheFile (o p)) t = None ->
  Do unixNanos getOAuthConfig p w
  = mkOutcome (WriteResult (execCredentialWriter p) t)
      (mkWorld (clock w) (<[tokenCacheFile (o p) := t]> (files w)))
      [CacheRead (tokenCacheFile (o p)); ProviderToken;
       CacheWrite (tokenCacheFile (o p)) t; CredentialWrite t].
Proof.
  intros Hc Hm Ht Hw.
  rewrite (Do_miss unixNanos getOAuthConfig p w token Hc Hm).
  destruct Hc as [Hd _].
  rewrite (acquireNewToken_acquired p w t Hd Ht), Hw. reflexivity.
Qed.

Lemma Do_full_login_witness :
  let p := Sample.plugin (Sample.options false "devicecode") Sample.cacheOk
                         (Ok Sample.other) Sample.refreshOk false in
  let w := Sample.emptyAt1000 in
  Do wholeSeconds Sample.getOAuthConfigOk p w
  = mkOutcome None
      (mkWorld (clock w) (<[Sample.cacheFile := Sample.other]> (files w)))
      [CacheRead Sample.cacheFile; ProviderToken;
       CacheWrite Sample.cacheFile Sample.other; CredentialWrite Sample.other].
Proof.
  intros p w.
  apply (Do_full_login wholeSeconds Sample.getOAuthConfigOk p w adal.zero Sample.other).
  - split; reflexivity.
  - intros [_ Hz]. apply Hz. reflexivity.
  - reflexivity.
  - reflexivity.
Defined.


